(** * A shallow embedding of the options backtester

    The development follows the Python sources [backtester.py] and
    [strategy/survivor_backtest.py].  Python integers are unbounded and are
    modelled as [Z]; dictionaries are finite maps ([gmap]); a method that
    mutates [self] becomes a function on an explicit state; a method that
    can raise returns a [result].  Capital, quantities and prices are
    integers here, as the default capital, the configured quantities and the
    fixed fill price are in the sources; floating-point prices are outside the
    model. *)

From Stdlib Require Import ZArith QArith String List Sorted Lia.
From stdpp Require Import gmap strings list fin_maps pretty.

Local Open Scope Z_scope.
Local Open Scope string_scope.

(** ** Python values, exceptions and results *)

(** The values found in a strategy configuration: numbers and strings. *)
Inductive pyval : Type :=
| VInt (z : Z)
| VStr (s : string).

Coercion VStr : string >-> pyval.

(** Python's [==] on the two kinds of value (an int never equals a str). *)
Definition pyval_eqb (a b : pyval) : bool :=
  match a, b with
  | VInt x, VInt y => Z.eqb x y
  | VStr x, VStr y => String.eqb x y
  | _, _ => false
  end.

(** The exceptions the modelled code can raise by itself. *)
Inductive exception : Type :=
| AttributeError (name : string)
| ZeroDivisionError.

Inductive result (A : Type) : Type :=
| Ok (a : A)
| Raise (e : exception).

Arguments Ok {A} a.
Arguments Raise {A} e.

Definition is_raise {A : Type} (r : result A) : bool :=
  match r with
  | Ok _ => false
  | Raise _ => true
  end.

(** The dictionary [{'last_price': p}], used both for the ticks handed to the
    strategy and for the quotes returned by the broker. *)
Record price_dict : Type := { last_price : Z }.

Module Backtester.

(** A position is the dictionary [{'quantity': q}]. *)
Record position : Type := { quantity : Z }.

(** One element of [self.history]. *)
Record history_entry : Type :=
  { timestamp : Z;
    entry_portfolio_value : Z }.

(** The attributes of a [Backtester] object.  [data] is the frame walked by
    [iterrows]: one (index, price) pair per row. *)
Record t : Type :=
  { data : list (Z * Z);
    initial_capital : Z;
    cash : Z;
    positions : gmap string position;
    portfolio_value : Z;
    history : list history_entry;
    instruments_df : list string }.

Definition set_cash (c : Z) (self : t) : t :=
  {| data := data self; initial_capital := initial_capital self;
     cash := c; positions := positions self;
     portfolio_value := portfolio_value self; history := history self;
     instruments_df := instruments_df self |}.

Definition set_positions (ps : gmap string position) (self : t) : t :=
  {| data := data self; initial_capital := initial_capital self;
     cash := cash self; positions := ps;
     portfolio_value := portfolio_value self; history := history self;
     instruments_df := instruments_df self |}.

Definition set_portfolio_value (v : Z) (self : t) : t :=
  {| data := data self; initial_capital := initial_capital self;
     cash := cash self; positions := positions self;
     portfolio_value := v; history := history self;
     instruments_df := instruments_df self |}.

Definition set_history (h : list history_entry) (self : t) : t :=
  {| data := data self; initial_capital := initial_capital self;
     cash := cash self; positions := positions self;
     portfolio_value := portfolio_value self; history := h;
     instruments_df := instruments_df self |}.

(** Computations that run against the broker: they read and update the
    [Backtester] object and either return a value or raise. *)
Definition M (A : Type) : Type := t -> result (A * t).

Definition ret {A : Type} (a : A) : M A := fun self => Ok (a, self).

Definition bind {A B : Type} (m : M A) (k : A -> M B) : M B :=
  fun self =>
    match m self with
    | Ok (a, self') => k a self'
    | Raise e => Raise e
    end.

(** A method that only mutates [self]. *)
Definition modify (f : t -> t) : M unit := fun self => Ok (tt, f self).

(** A call that may raise before touching the broker. *)
Definition lift {A : Type} (r : result A) : M A :=
  fun self =>
    match r with
    | Ok a => Ok (a, self)
    | Raise e => Raise e
    end.

Declare Scope broker_scope.
Delimit Scope broker_scope with broker.
Notation "x <- m ;; k" := (bind m (fun x => k))
  (at level 100, m at next level, right associativity) : broker_scope.
Notation "m ;; k" := (bind m (fun _ => k))
  (at level 100, right associativity) : broker_scope.

(** [Backtester.__init__] (the strategy class is the [Strategy] instance in
    scope at [run], see below). *)
Definition __init__ (data : list (Z * Z)) (initial_capital : Z) : t :=
  {| data := data;
     initial_capital := initial_capital;
     cash := initial_capital;
     positions := ∅;
     portfolio_value := initial_capital;
     history := [];
     instruments_df := [] |}.

Definition _get_default_config : gmap string pyval :=
  list_to_map
    [ ("symbol_initials", VStr "NIFTY25JAN30");
      ("index_symbol", VStr "NSE:NIFTY 50");
      ("pe_gap", VInt 25);
      ("ce_gap", VInt 25);
      ("pe_symbol_gap", VInt 200);
      ("ce_symbol_gap", VInt 200);
      ("pe_reset_gap", VInt 50);
      ("ce_reset_gap", VInt 50);
      ("pe_quantity", VInt 50);
      ("ce_quantity", VInt 50);
      ("min_price_to_sell", VInt 15);
      ("sell_multiplier_threshold", VInt 3);
      ("exchange", VStr "NFO");
      ("order_type", VStr "MARKET");
      ("product_type", VStr "NRML");
      ("trans_type", VStr "SELL");
      ("pe_start_point", VInt 0);
      ("ce_start_point", VInt 0) ].

(** [_update_portfolio_value]: start from the cash and add, for every entry
    of the position book, its quantity times [current_price]. *)
Definition _update_portfolio_value (current_price : Z) (self : t) : t :=
  set_portfolio_value
    (map_fold
       (fun (symbol : string) (position : position) (acc : Z) =>
          acc + quantity position * current_price)
       (cash self) (positions self))
    self.

(** [place_order]; the keyword arguments and the log line have no effect on
    the object. *)
Definition place_order (symbol : string) (qty price : Z)
    (transaction_type order_type : pyval) : M Z :=
  fun self =>
    let self :=
      if pyval_eqb transaction_type (VStr "SELL") then
        let self := set_cash (cash self + qty * price) self in
        match positions self !! symbol with
        | Some p =>
            set_positions
              (<[symbol := {| quantity := quantity p - qty |}]> (positions self)) self
        | None =>
            set_positions
              (<[symbol := {| quantity := - qty |}]> (positions self)) self
        end
      else if pyval_eqb transaction_type (VStr "BUY") then
        let self := set_cash (cash self - qty * price) self in
        match positions self !! symbol with
        | Some p =>
            set_positions
              (<[symbol := {| quantity := quantity p + qty |}]> (positions self)) self
        | None =>
            set_positions
              (<[symbol := {| quantity := qty |}]> (positions self)) self
        end
      else self in
    Ok (1, self).

Definition get_quote (symbol : string) : gmap string price_dict :=
  {[ symbol := {| last_price := 20 |} ]}.

Definition add_order (order_details : gmap string pyval) : M unit := ret tt.

Definition download_instruments : M unit := ret tt.

(** What [run] needs from [self.strategy_class]: a constructor taking the
    configuration (the broker and order manager it also receives are the
    [Backtester] object itself, here the state threaded by [M]) and the
    per-tick callback, which runs against the broker and may raise. *)
Class Strategy (S : Type) : Type :=
  { new : gmap string pyval -> result S;
    on_ticks_update : S -> price_dict -> M S }.

(** [self.history.append({'timestamp': index, 'portfolio_value': ...})] *)
Definition record_history (index : Z) (self : t) : t :=
  set_history
    (history self ++
       [ {| timestamp := index;
            entry_portfolio_value := portfolio_value self |} ])
    self.

(** The body of the [for index, row in self.data.iterrows()] loop, iterated
    over the rows in order. *)
Fixpoint run_loop {S : Type} `{Strategy S} (strategy : S)
    (rows : list (Z * Z)) : M unit :=
  match rows with
  | [] => ret tt
  | (index, price) :: rows =>
      let ticks := {| last_price := price |} in
      (strategy <- on_ticks_update strategy ticks ;;
       modify (_update_portfolio_value price) ;;
       modify (record_history index) ;;
       run_loop strategy rows)%broker
  end.

Definition run {S : Type} `{Strategy S} : M unit :=
  fun self =>
    (strategy <- lift (new _get_default_config) ;;
     run_loop strategy (data self))%broker self.

(** What [generate_performance_report] prints.  The numbers interpolated
    into the f-strings are kept as numbers. *)
Inductive printed : Type :=
| Line (s : string)
| InitialCapitalLine (c : Z)
| FinalValueLine (v : Z)
| TotalReturnLine (r : Q).

(** [(self.portfolio_value / self.initial_capital - 1) * 100], as an exact
    rational; Python raises on a zero divisor. *)
Definition total_return (self : t) : result Q :=
  if Z.eqb (initial_capital self) 0 then Raise ZeroDivisionError
  else
    Ok ((inject_Z (portfolio_value self) / inject_Z (initial_capital self)
         - 1) * 100)%Q.

(** [generate_performance_report]: the lines printed and the value
    returned, [None] or the frame built from the history. *)
Definition generate_performance_report (self : t)
    : result (list printed * option (list history_entry)) :=
  match history self with
  | [] => Ok ([Line "No trading history to generate a report."], None)
  | _ :: _ =>
      let df := history self in
      match total_return self with
      | Raise e => Raise e
      | Ok r =>
          Ok ([ Line "Backtest Performance Report";
                Line "=========================";
                InitialCapitalLine (initial_capital self);
                FinalValueLine (portfolio_value self);
                TotalReturnLine r ],
              Some df)
      end
  end.

End Backtester.

Module SurvivorBacktestStrategy.
Import Backtester.

(** The attributes of a strategy object.  [setattr(self, f'strat_var_{k}', v)]
    creates one attribute per configuration key: [strat_var] is the map from
    [k] to the value of [strat_var_k]. *)
Record t : Type :=
  { strat_var : gmap string pyval;
    symbol_initials : pyval;
    instruments : option (list string);
    strike_difference : Z;
    pe_reset_gap_flag : Z;
    ce_reset_gap_flag : Z;
    nifty_pe_last_value : Z;
    nifty_ce_last_value : Z }.

(** Reading [self.strat_var_<k>]. *)
Definition get_strat_var (attrs : gmap string pyval) (k : string)
    : result pyval :=
  match attrs !! k with
  | Some v => Ok v
  | None => Raise (AttributeError ("strat_var_" ++ k))
  end.

Definition _nifty_quote (self : t) : option Z := None.

Definition _initialize_state (self : t) : t :=
  {| strat_var := strat_var self;
     symbol_initials := symbol_initials self;
     instruments := instruments self;
     strike_difference := strike_difference self;
     pe_reset_gap_flag := 0;
     ce_reset_gap_flag := 0;
     nifty_pe_last_value := 24500;
     nifty_ce_last_value := 24500 |}.

(** [__init__]: the four attributes written by [_initialize_state] do not
    exist before that call; the record holds 0 there until it runs. *)
Definition __init__ (config : gmap string pyval) : result t :=
  let attrs := config in
  match get_strat_var attrs "symbol_initials" with
  | Raise e => Raise e
  | Ok initials =>
      Ok (_initialize_state
            {| strat_var := attrs;
               symbol_initials := initials;
               instruments := None;
               strike_difference := 50;
               pe_reset_gap_flag := 0;
               ce_reset_gap_flag := 0;
               nifty_pe_last_value := 0;
               nifty_ce_last_value := 0 |})
  end.

Definition _get_strike_difference (self : t) (symbol_initials : pyval) : Z :=
  strike_difference self.

(** The dictionary returned by [_find_nifty_symbol_from_gap]. *)
Record instrument : Type :=
  { tradingsymbol : string;
    strike : Z }.

Definition _find_nifty_symbol_from_gap (option_type : string) (ltp gap : Z)
    : instrument :=
  let target_strike :=
    ltp + (if String.eqb option_type "CE" then gap else - gap) in
  {| tradingsymbol := "NIFTY" ++ option_type ++ pretty target_strike;
     strike := target_strike |}.

Definition _place_order (self : t) (symbol : string) (qty : Z) : M unit :=
  (trans_type <- lift (get_strat_var (strat_var self) "trans_type") ;;
   order_type <- lift (get_strat_var (strat_var self) "order_type") ;;
   place_order symbol qty 20 trans_type order_type ;;
   ret tt)%broker.

(** The class as [Backtester.run] sees it.  [on_ticks_update] is inherited
    from the live strategy, which is not part of these sources: it is a
    parameter. *)
Definition strategy_class (on_ticks_update : t -> price_dict -> M t)
    : Strategy t :=
  {| new := __init__;
     on_ticks_update := on_ticks_update |}.

(** A callback that reacts to every tick with one order through
    [_place_order] and keeps the strategy as it is. *)
Definition order_each_tick (symbol : string) (qty : Z)
    : t -> price_dict -> M t :=
  fun self ticks => (_place_order self symbol qty ;; ret self)%broker.

End SurvivorBacktestStrategy.

(** ** Quantities the properties are stated with *)

Import Backtester.

Definition Z_sum (l : list Z) : Z := foldr Z.add 0 l.

(** The signed quantity held in [symbol]; a symbol without an entry in the
    position book holds nothing. *)
Definition position_quantity (symbol : string) (self : Backtester.t) : Z :=
  match positions self !! symbol with
  | Some p => quantity p
  | None => 0
  end.

(** The sum of the quantities of all entries of the position book. *)
Definition total_quantity (self : Backtester.t) : Z :=
  Z_sum ((fun kp : string * position => quantity kp.2)
           <$> map_to_list (positions self)).

(** Cash plus, for every position, its quantity times the mark price of its
    symbol, for a given assignment of mark prices to symbols. *)
Definition marked_value (mark_price : string -> Z) (self : Backtester.t) : Z :=
  cash self
  + Z_sum ((fun kp : string * position => quantity kp.2 * mark_price kp.1)
             <$> map_to_list (positions self)).

(** The price the broker quotes for a symbol: [get_quote(s)[s]['last_price']]. *)
Definition quoted_price (symbol : string) : Z :=
  match get_quote symbol !! symbol with
  | Some d => last_price d
  | None => 0
  end.

(** The arguments of one [place_order] call, and a sequence of such calls made
    one after the other, collecting the identifiers returned. *)
Record order : Type :=
  { order_symbol : string;
    order_quantity : Z;
    order_price : Z;
    order_transaction_type : pyval;
    order_order_type : pyval }.

Fixpoint place_orders (orders : list order) : M (list Z) :=
  match orders with
  | [] => ret []
  | o :: orders =>
      (id <- place_order (order_symbol o) (order_quantity o) (order_price o)
               (order_transaction_type o) (order_order_type o) ;;
       ids <- place_orders orders ;;
       ret (id :: ids))%broker
  end.

(** The history a feed must leave behind, tick by tick: the strategy reacts
    to the tick, the broker it leaves is marked at the tick's price, and the
    entry holds the tick's timestamp and that value; the next tick starts
    from there. *)
Inductive recorded {S : Type} `{Strategy S}
    : S -> Backtester.t -> list (Z * Z) -> list history_entry -> Prop :=
| recorded_nil strategy self : recorded strategy self [] []
| recorded_tick strategy self index price rows strategy' reacted entries :
    on_ticks_update strategy {| last_price := price |} self
      = Ok (strategy', reacted) ->
    recorded strategy'
      (record_history index (_update_portfolio_value price reacted))
      rows entries ->
    recorded strategy self ((index, price) :: rows)
      ({| timestamp := index;
          entry_portfolio_value :=
            portfolio_value (_update_portfolio_value price reacted) |}
         :: entries).

(** The broker after one SELL of 50 at 20 from a capital of 100000. *)
Definition short_50_at_20 : Backtester.t :=
  match place_order "NIFTY-CE-24525" 50 20 "SELL" "MARKET"
          (Backtester.__init__ [] 100000) with
  | Ok (_, self) => self
  | Raise _ => Backtester.__init__ [] 100000
  end.

(** The strategy object that [run] gets from [SurvivorBacktestStrategy] and
    the default configuration. *)
Definition default_strategy : SurvivorBacktestStrategy.t :=
  {| SurvivorBacktestStrategy.strat_var := _get_default_config;
     SurvivorBacktestStrategy.symbol_initials := VStr "NIFTY25JAN30";
     SurvivorBacktestStrategy.instruments := None;
     SurvivorBacktestStrategy.strike_difference := 50;
     SurvivorBacktestStrategy.pe_reset_gap_flag := 0;
     SurvivorBacktestStrategy.ce_reset_gap_flag := 0;
     SurvivorBacktestStrategy.nifty_pe_last_value := 24500;
     SurvivorBacktestStrategy.nifty_ce_last_value := 24500 |}.

(** The backtest of [SurvivorBacktestStrategy] with a callback that sells 50
    of one symbol on every tick. *)
Definition sells_50_each_tick : Strategy SurvivorBacktestStrategy.t :=
  SurvivorBacktestStrategy.strategy_class
    (SurvivorBacktestStrategy.order_each_tick "NIFTY-CE-24525" 50).

(** The effect of one fill on the object: the cash moves by [dc] and the
    quantity held in [symbol] by [dq], an entry being created when there is
    none. *)
Definition fill (symbol : string) (dq dc : Z) (self : Backtester.t)
    : Backtester.t :=
  set_positions
    (<[symbol := {| quantity := position_quantity symbol self + dq |}]>
       (positions self))
    (set_cash (cash self + dc) self).

(** The backtest of [SurvivorBacktestStrategy] with a callback that never
    places an order. *)
Definition never_trades : Strategy SurvivorBacktestStrategy.t :=
  SurvivorBacktestStrategy.strategy_class (fun self ticks => ret self).

(** The backtester after one run over a single tick with the strategy that
    sells 50 on every tick. *)
Definition after_one_run : Backtester.t :=
  match @run _ sells_50_each_tick (Backtester.__init__ [(1, 24500)] 100000) with
  | Ok (_, self) => self
  | Raise _ => Backtester.__init__ [(1, 24500)] 100000
  end.

(** ** Mark-to-market *)

Lemma fold_marks_at_price (p acc : Z) (l : list (string * position)) :
  foldr (uncurry (fun (_ : string) (pos : position) (a : Z) => a + quantity pos * p))
        acc l
  = acc + Z_sum ((fun kp : string * position => quantity kp.2 * p) <$> l).
Proof.
  unfold Z_sum.
  induction l as [|[k pos] l IH]; csimpl; [lia|].
  rewrite IH. lia.
Qed.

Lemma Z_sum_scale (p : Z) (l : list (string * position)) :
  Z_sum ((fun kp : string * position => quantity kp.2 * p) <$> l)
  = p * Z_sum ((fun kp : string * position => quantity kp.2) <$> l).
Proof.
  unfold Z_sum.
  induction l as [|[k pos] l IH]; csimpl; [lia|].
  rewrite IH. lia.
Qed.

Lemma update_portfolio_value_sum (p : Z) (self : Backtester.t) :
  portfolio_value (_update_portfolio_value p self)
  = cash self
    + Z_sum ((fun kp : string * position => quantity kp.2 * p)
               <$> map_to_list (positions self)).
Proof.
  unfold _update_portfolio_value. simpl.
  rewrite map_fold_foldr. apply fold_marks_at_price.
Qed.

Lemma Z_sum_permutation (l1 l2 : list Z) : l1 ≡ₚ l2 -> Z_sum l1 = Z_sum l2.
Proof.
  unfold Z_sum. induction 1; simpl; lia.
Qed.

Lemma fold_left_marks_at_price (p : Z) (items : list (string * position)) :
  forall acc : Z,
    fold_left (fun (a : Z) (kp : string * position) => a + quantity kp.2 * p)
              items acc
    = acc + Z_sum ((fun kp : string * position => quantity kp.2 * p) <$> items).
Proof.
  unfold Z_sum.
  induction items as [|kp items IH]; intros acc; csimpl; [lia|].
  rewrite IH. lia.
Qed.

(** The Python loop walks the dictionary in insertion order; whatever the
    order in which the entries are visited, the accumulated value is the
    one computed by [_update_portfolio_value]. *)
Lemma update_portfolio_value_any_order (p : Z) (self : Backtester.t)
    (items : list (string * position)) :
  items ≡ₚ map_to_list (positions self) ->
  fold_left (fun (a : Z) (kp : string * position) => a + quantity kp.2 * p)
            items (cash self)
  = portfolio_value (_update_portfolio_value p self).
Proof.
  intros Hp. rewrite fold_left_marks_at_price, update_portfolio_value_sum.
  f_equal. apply Z_sum_permutation. rewrite Hp. reflexivity.
Qed.

(** C1, as the code has it: after [_update_portfolio_value p] the recorded
    value is exactly the cash plus the sum over all positions of quantity
    times [p], the one price passed to the call being the mark of every
    symbol; the value recorded before the call plays no part (no drift). *)
Theorem update_portfolio_value_marks_at_tick_price
    (p v : Z) (self : Backtester.t) :
  portfolio_value (_update_portfolio_value p self)
    = marked_value (fun _ => p) self
  /\ portfolio_value (_update_portfolio_value p (set_portfolio_value v self))
    = marked_value (fun _ => p) self.
Proof.
  split; rewrite update_portfolio_value_sum; reflexivity.
Qed.

(** C1 as stated fails when the mark price of a symbol is the price quoted
    for it: with a short position of 50 and cash 101000, marking at the tick
    24500 records -1124000, while cash plus quantity times the quote (20) is
    100000. *)
Lemma update_portfolio_value_ignores_quotes :
  portfolio_value (_update_portfolio_value 24500 short_50_at_20) = -1124000
  /\ marked_value quoted_price short_50_at_20 = 100000
  /\ portfolio_value (_update_portfolio_value 24500 short_50_at_20)
     <> marked_value quoted_price short_50_at_20.
Proof.
  repeat split; try (vm_compute; reflexivity).
  vm_compute. discriminate.
Qed.

(** C10: [_update_portfolio_value p] values every position at the single
    price [p], whatever its symbol or quote, so the recorded value is
    cash + p * (sum of all quantities); cash and positions stay as they
    were. *)
Theorem update_portfolio_value_single_price (p : Z) (self : Backtester.t) :
  portfolio_value (_update_portfolio_value p self)
    = cash self + p * total_quantity self
  /\ cash (_update_portfolio_value p self) = cash self
  /\ positions (_update_portfolio_value p self) = positions self.
Proof.
  split; [|split; reflexivity].
  rewrite update_portfolio_value_sum. unfold total_quantity.
  rewrite Z_sum_scale. reflexivity.
Qed.

(** ** Order execution *)

Lemma place_order_sell (symbol : string) (q p : Z) (ot : pyval)
    (self : Backtester.t) :
  place_order symbol q p "SELL" ot self
  = Ok (1, set_positions
             (<[symbol := {| quantity := position_quantity symbol self - q |}]>
                (positions self))
             (set_cash (cash self + q * p) self)).
Proof.
  unfold place_order, position_quantity. simpl.
  destruct (positions self !! symbol); reflexivity.
Qed.

Lemma place_order_buy (symbol : string) (q p : Z) (ot : pyval)
    (self : Backtester.t) :
  place_order symbol q p "BUY" ot self
  = Ok (1, set_positions
             (<[symbol := {| quantity := position_quantity symbol self + q |}]>
                (positions self))
             (set_cash (cash self - q * p) self)).
Proof.
  unfold place_order, position_quantity. simpl.
  destruct (positions self !! symbol); reflexivity.
Qed.

Lemma place_order_returns_1 (symbol : string) (q p : Z) (tt ot : pyval)
    (self : Backtester.t) :
  exists self', place_order symbol q p tt ot self = Ok (1, self')
                /\ history self' = history self
                /\ data self' = data self.
Proof.
  unfold place_order.
  destruct (pyval_eqb tt "SELL"); [|destruct (pyval_eqb tt "BUY")];
    simpl; try destruct (positions self !! symbol);
    eexists; (split; [reflexivity|split; reflexivity]).
Qed.

Lemma position_quantity_insert (symbol : string) (x : Z)
    (ps : gmap string position) (self : Backtester.t) :
  position_quantity symbol
    (set_positions (<[symbol := {| quantity := x |}]> ps) self) = x.
Proof.
  unfold position_quantity. simpl. rewrite lookup_insert_eq. reflexivity.
Qed.

(** C3: a SELL of [q] at [p] followed by a BUY of [q] at [p] on the same
    symbol brings the cash and the quantity held in that symbol back to what
    they were before the two orders. *)
Theorem sell_then_buy_round_trip (symbol : string) (q p : Z)
    (ot1 ot2 : pyval) (self : Backtester.t) :
  exists id1 id2 sold bought,
    place_order symbol q p "SELL" ot1 self = Ok (id1, sold)
    /\ place_order symbol q p "BUY" ot2 sold = Ok (id2, bought)
    /\ cash bought = cash self
    /\ position_quantity symbol bought = position_quantity symbol self.
Proof.
  eexists _, _, _, _.
  split; [apply place_order_sell|].
  split; [apply place_order_buy|].
  split.
  - simpl. lia.
  - rewrite !position_quantity_insert. lia.
Qed.

(** The round trip leaves every other symbol alone, and a symbol that had
    no entry before ends with an entry of quantity 0. *)
Lemma sell_then_buy_book (symbol : string) (q p : Z) (ot1 ot2 : pyval)
    (self sold bought : Backtester.t) (i1 i2 : Z) :
  place_order symbol q p "SELL" ot1 self = Ok (i1, sold) ->
  place_order symbol q p "BUY" ot2 sold = Ok (i2, bought) ->
  positions bought
  = <[symbol := {| quantity := position_quantity symbol self |}]>
      (positions self).
Proof.
  rewrite place_order_sell. intros [= _ <-].
  rewrite place_order_buy. intros [= _ <-].
  rewrite position_quantity_insert. simpl.
  rewrite insert_insert_eq. do 2 f_equal. lia.
Qed.

(** C4, as the code has it: [place_order] returns normally, with identifier
    1, for every input, well-formed or not; a non-positive quantity or price
    goes through the same update as any other (SELL adds quantity * price to
    the cash and takes the quantity off the position, BUY does the
    opposite). *)
Theorem place_order_never_raises (symbol : string) (q p : Z)
    (tt ot : pyval) (self : Backtester.t) :
  (exists self', place_order symbol q p tt ot self = Ok (1, self'))
  /\ (exists sold,
        place_order symbol q p "SELL" ot self = Ok (1, sold)
        /\ cash sold = cash self + q * p
        /\ position_quantity symbol sold = position_quantity symbol self - q)
  /\ (exists bought,
        place_order symbol q p "BUY" ot self = Ok (1, bought)
        /\ cash bought = cash self - q * p
        /\ position_quantity symbol bought = position_quantity symbol self + q).
Proof.
  split; [|split].
  - destruct (place_order_returns_1 symbol q p tt ot self) as (self' & E & _).
    exists self'. exact E.
  - eexists. split; [apply place_order_sell|].
    split; [reflexivity|apply position_quantity_insert].
  - eexists. split; [apply place_order_buy|].
    split; [reflexivity|apply position_quantity_insert].
Qed.

(** C4 as stated fails: a SELL of -5 units is not rejected; it returns
    identifier 1, takes 100 off the cash and leaves a long position of 5. *)
Lemma place_order_executes_negative_quantity :
  exists self',
    place_order "NIFTYCE24700" (-5) 20 "SELL" "MARKET"
      (Backtester.__init__ [] 100000) = Ok (1, self')
    /\ cash self' = 99900
    /\ positions self' !! "NIFTYCE24700" = Some {| quantity := 5 |}
    /\ cash self' <> cash (Backtester.__init__ [] 100000).
Proof.
  eexists. split; [apply place_order_sell|].
  repeat split; try (vm_compute; reflexivity).
  vm_compute. discriminate.
Qed.

(** C9, as the code has it: every call returns the identifier 1, so the
    identifiers of a sequence of calls are all equal: they never decrease
    and never increase. *)
Theorem place_orders_ids_constant (orders : list order)
    (self : Backtester.t) :
  exists ids final,
    place_orders orders self = Ok (ids, final)
    /\ ids = replicate (length orders) 1
    /\ StronglySorted Z.le ids.
Proof.
  revert self. induction orders as [|o orders IH]; intros self.
  - exists [], self. repeat split. constructor.
  - destruct (place_order_returns_1 (order_symbol o) (order_quantity o)
                (order_price o) (order_transaction_type o)
                (order_order_type o) self) as (self1 & E1 & _).
    destruct (IH self1) as (ids & final & E & -> & Hs).
    exists (1 :: replicate (length orders) 1), final.
    split; [|split].
    + simpl. unfold bind. rewrite E1, E. reflexivity.
    + reflexivity.
    + constructor; [exact Hs|].
      apply Forall_forall. intros x Hx.
      apply elem_of_replicate in Hx. lia.
Qed.

(** C9 as stated fails: two calls one after the other return 1 and 1, and
    the second identifier is not greater than the first. *)
Lemma place_order_ids_do_not_increase :
  exists id1 id2 final,
    place_orders
      [ {| order_symbol := "NIFTYCE24700"; order_quantity := 50;
           order_price := 20; order_transaction_type := "SELL";
           order_order_type := "MARKET" |};
        {| order_symbol := "NIFTYPE24300"; order_quantity := 50;
           order_price := 20; order_transaction_type := "SELL";
           order_order_type := "MARKET" |} ]
      (Backtester.__init__ [] 100000) = Ok ([id1; id2], final)
    /\ ~ (id1 < id2).
Proof.
  eexists _, _, _. split; [vm_compute; reflexivity|]. lia.
Qed.

(** ** Strike selection *)

Import SurvivorBacktestStrategy.

(** C7: the target strike is [ltp + gap] for a call and [ltp - gap] for a
    put; the trading symbol is "NIFTY", the option type and the strike in
    decimal, so two calls with the same option type and the same target
    strike give the same instrument; 24500 with a gap of 200 gives 24700
    for 'CE' and 24300 for 'PE'. *)
Theorem find_nifty_symbol_from_gap_strike (ltp gap : Z) :
  strike (_find_nifty_symbol_from_gap "CE" ltp gap) = ltp + gap
  /\ strike (_find_nifty_symbol_from_gap "PE" ltp gap) = ltp - gap
  /\ (forall option_type : string,
        tradingsymbol (_find_nifty_symbol_from_gap option_type ltp gap)
        = "NIFTY" ++ option_type
            ++ pretty (strike (_find_nifty_symbol_from_gap option_type ltp gap)))
  /\ (forall (option_type : string) (ltp' gap' : Z),
        strike (_find_nifty_symbol_from_gap option_type ltp' gap')
        = strike (_find_nifty_symbol_from_gap option_type ltp gap) ->
        _find_nifty_symbol_from_gap option_type ltp' gap'
        = _find_nifty_symbol_from_gap option_type ltp gap)
  /\ _find_nifty_symbol_from_gap "CE" 24500 200
     = {| tradingsymbol := "NIFTYCE24700"; strike := 24700 |}
  /\ _find_nifty_symbol_from_gap "PE" 24500 200
     = {| tradingsymbol := "NIFTYPE24300"; strike := 24300 |}.
Proof.
  split; [reflexivity|].
  split; [unfold _find_nifty_symbol_from_gap; simpl; lia|].
  split; [intros option_type; reflexivity|].
  split; [|split; vm_compute; reflexivity].
  intros option_type ltp' gap'. unfold _find_nifty_symbol_from_gap. simpl.
  intros ->. reflexivity.
Qed.

(** ** Strategy construction *)

(** C8, as the code has it: construction raises (an [AttributeError]) exactly
    when the configuration has no 'symbol_initials'; with that key present it
    succeeds and keeps the configuration as it came, whatever else is
    missing. *)
Theorem init_raises_only_without_symbol_initials
    (config : gmap string pyval) :
  (config !! "symbol_initials" = None
   /\ SurvivorBacktestStrategy.__init__ config
      = Raise (AttributeError "strat_var_symbol_initials"))
  \/ (exists (v : pyval) (strategy : SurvivorBacktestStrategy.t),
        config !! "symbol_initials" = Some v
        /\ SurvivorBacktestStrategy.__init__ config = Ok strategy
        /\ strat_var strategy = config
        /\ symbol_initials strategy = v).
Proof.
  unfold SurvivorBacktestStrategy.__init__, get_strat_var.
  destruct (config !! "symbol_initials") as [v|].
  - right. eexists v, _. repeat split.
  - left. split; reflexivity.
Qed.

(** An order placed by a strategy built without 'trans_type' raises when it
    is placed. *)
Lemma place_order_without_trans_type (strategy : SurvivorBacktestStrategy.t)
    (symbol : string) (q : Z) (self : Backtester.t) :
  strat_var strategy !! "trans_type" = None ->
  _place_order strategy symbol q self
  = Raise (AttributeError "strat_var_trans_type").
Proof.
  intros E. unfold _place_order, bind, lift, get_strat_var. rewrite E.
  reflexivity.
Qed.

(** C8 as stated fails: a configuration without the gap threshold 'pe_gap',
    and one without 'trans_type', are both accepted at construction; the
    second fails only later, when the strategy places an order. *)
Lemma init_accepts_missing_keys :
  delete "pe_gap" _get_default_config !! "pe_gap" = None
  /\ is_raise (SurvivorBacktestStrategy.__init__
                 (delete "pe_gap" _get_default_config)) = false
  /\ exists strategy,
       SurvivorBacktestStrategy.__init__
         (delete "trans_type" _get_default_config) = Ok strategy
       /\ _place_order strategy "NIFTYCE24700" 50
            (Backtester.__init__ [] 100000)
          = Raise (AttributeError "strat_var_trans_type").
Proof.
  split; [vm_compute; reflexivity|].
  split; [vm_compute; reflexivity|].
  eexists. split; [vm_compute; reflexivity|].
  vm_compute. reflexivity.
Qed.

(** ** The simulation loop *)

Lemma history_record_history (index : Z) (self : Backtester.t) :
  history (record_history index self)
  = (history self
     ++ [ {| timestamp := index;
             entry_portfolio_value := portfolio_value self |} ])%list.
Proof. reflexivity. Qed.

Section Run.
Context {S : Type} `{Strategy S}.

Lemma run_constructed (strategy : S) (self : Backtester.t) :
  new _get_default_config = Ok strategy ->
  run self = run_loop strategy (data self) self.
Proof. intros E. unfold run, bind, lift. rewrite E. reflexivity. Qed.

(** When the constructor raises, [run] raises before the first tick. *)
Lemma run_aborts_in_constructor (e : exception) (self : Backtester.t) :
  new _get_default_config = Raise e -> run self = Raise e.
Proof. intros E. unfold run, bind, lift. rewrite E. reflexivity. Qed.

Lemma run_loop_tick (strategy strategy' : S) (index price : Z)
    (rows : list (Z * Z)) (self reacted : Backtester.t) :
  on_ticks_update strategy {| last_price := price |} self
    = Ok (strategy', reacted) ->
  run_loop strategy ((index, price) :: rows) self
  = run_loop strategy' rows
      (record_history index (_update_portfolio_value price reacted)).
Proof. intros E. simpl. unfold bind, modify. rewrite E. reflexivity. Qed.

Section Behaved.
(** A strategy that keeps to an invariant under which its callback
    returns and leaves the history to the driver. *)
Variable behaved : S -> Prop.
Hypothesis reacts :
  forall (strategy : S) (ticks : price_dict) (self : Backtester.t),
    behaved strategy ->
    exists strategy' reacted,
      on_ticks_update strategy ticks self = Ok (strategy', reacted)
      /\ behaved strategy'
      /\ history reacted = history self.

Lemma run_loop_recorded (rows : list (Z * Z)) :
  forall (strategy : S) (self : Backtester.t),
    behaved strategy ->
    exists final entries,
      run_loop strategy rows self = Ok (tt, final)
      /\ history final = (history self ++ entries)%list
      /\ timestamp <$> entries = rows.*1
      /\ recorded strategy self rows entries.
Proof.
  induction rows as [|[index price] rows IH]; intros strategy self Hb.
  - exists self, []. rewrite app_nil_r. repeat split. constructor.
  - destruct (reacts strategy {| last_price := price |} self Hb)
      as (strategy' & reacted & E & Hb' & Hh).
    destruct (IH strategy'
                (record_history index (_update_portfolio_value price reacted))
                Hb')
      as (final & entries & Erun & Hhist & Hts & Hrec).
    exists final,
      ({| timestamp := index;
          entry_portfolio_value :=
            portfolio_value (_update_portfolio_value price reacted) |}
         :: entries).
    split; [rewrite (run_loop_tick _ _ _ _ _ _ _ E); exact Erun|].
    split; [rewrite Hhist; simpl; rewrite Hh, <- app_assoc; reflexivity|].
    split; [csimpl; rewrite Hts; reflexivity|].
    econstructor; eassumption.
Qed.
End Behaved.

(** C5: on a freshly built backtester, [run] leaves a history with exactly
    one entry per row of the feed, in feed order: the timestamps are the
    row indices, and every entry holds the value marked at its tick's price
    on the broker as the strategy's reaction to that tick left it. *)
Theorem run_records_every_tick (behaved : S -> Prop)
    (rows : list (Z * Z)) (capital : Z) (strategy : S) :
  new _get_default_config = Ok strategy ->
  behaved strategy ->
  (forall (strategy : S) (ticks : price_dict) (self : Backtester.t),
      behaved strategy ->
      exists strategy' reacted,
        on_ticks_update strategy ticks self = Ok (strategy', reacted)
        /\ behaved strategy'
        /\ history reacted = history self) ->
  exists final,
    run (Backtester.__init__ rows capital) = Ok (tt, final)
    /\ length (history final) = length rows
    /\ timestamp <$> history final = rows.*1
    /\ recorded strategy (Backtester.__init__ rows capital) rows
         (history final).
Proof.
  intros Hnew Hb Hreacts.
  destruct (run_loop_recorded behaved Hreacts rows strategy
              (Backtester.__init__ rows capital) Hb)
    as (final & entries & Erun & Hhist & Hts & Hrec).
  simpl in Hhist. subst entries.
  exists final. split; [rewrite (run_constructed strategy _ Hnew); exact Erun|].
  split; [|split; assumption].
  rewrite <- (length_fmap timestamp), Hts, length_fmap. reflexivity.
Qed.

(** C6: with an empty feed [run] leaves the history empty, and the report
    on it prints the no-history line and returns [None]; whenever the
    report returns, it returns [None] exactly when the history is empty
    and the frame otherwise. *)
Theorem empty_feed_reports_no_data (capital : Z) (strategy : S) :
  new _get_default_config = Ok strategy ->
  exists final,
    run (Backtester.__init__ [] capital) = Ok (tt, final)
    /\ history final = []
    /\ generate_performance_report final
       = Ok ([Line "No trading history to generate a report."], None)
    /\ forall (self : Backtester.t) (out : list printed)
              (r : option (list history_entry)),
         generate_performance_report self = Ok (out, r) ->
         (r = None <-> history self = [])
         /\ (history self <> [] -> r = Some (history self)).
Proof.
  intros Hnew. exists (Backtester.__init__ [] capital).
  split; [rewrite (run_constructed strategy _ Hnew); reflexivity|].
  split; [reflexivity|]. split; [reflexivity|].
  intros self out r. unfold generate_performance_report.
  destruct (history self) as [|e h] eqn:Eh.
  - intros [= <- <-]. split; [tauto|congruence].
  - destruct (total_return self); [|discriminate].
    intros [= <- <-]. split; [split; discriminate|reflexivity].
Qed.

(** C2, as the code has it: from a capital of 100000, one tick at 24500 on
    which the strategy places one SELL of 50 at 20 leaves cash 101000 and
    a position of -50; the value recorded for the tick is
    101000 - 50 * 24500 = -1124000, the position being marked at the tick
    price. *)
Theorem single_sell_tick (strategy strategy' : S) (symbol : string)
    (index : Z) (order_type : pyval) :
  new _get_default_config = Ok strategy ->
  (forall self : Backtester.t,
      on_ticks_update strategy {| last_price := 24500 |} self
      = (place_order symbol 50 20 "SELL" order_type ;; ret strategy')%broker
          self) ->
  exists final,
    run (Backtester.__init__ [(index, 24500)] 100000) = Ok (tt, final)
    /\ cash final = 101000
    /\ positions final !! symbol = Some {| quantity := -50 |}
    /\ portfolio_value final = -1124000
    /\ history final
       = [ {| timestamp := index; entry_portfolio_value := -1124000 |} ].
Proof.
  intros Hnew Hreact.
  rewrite (run_constructed strategy _ Hnew). simpl data.
  erewrite run_loop_tick;
    [|rewrite Hreact; unfold bind; rewrite place_order_sell; reflexivity].
  eexists. split; [reflexivity|].
  assert (Hv : portfolio_value
                 (_update_portfolio_value 24500
                    (set_positions
                       (<[symbol:={| quantity :=
                            position_quantity symbol
                              (Backtester.__init__ [(index, 24500)] 100000) - 50 |}]>
                          (positions (Backtester.__init__ [(index, 24500)] 100000)))
                       (set_cash
                          (cash (Backtester.__init__ [(index, 24500)] 100000) + 50 * 20)
                          (Backtester.__init__ [(index, 24500)] 100000))))
               = -1124000).
  { rewrite update_portfolio_value_sum. simpl positions.
    rewrite insert_empty, map_to_list_singleton. reflexivity. }
  split; [reflexivity|].
  split; [simpl; rewrite lookup_insert_eq; reflexivity|].
  split; [exact Hv|].
  rewrite history_record_history, Hv. reflexivity.
Qed.

End Run.

(** ** The loop on [SurvivorBacktestStrategy] *)

Lemma init_default_strategy :
  SurvivorBacktestStrategy.__init__ _get_default_config = Ok default_strategy.
Proof. vm_compute. reflexivity. Qed.

Lemma order_each_tick_default (symbol : string) (q : Z) (ticks : price_dict)
    (self : Backtester.t) :
  order_each_tick symbol q default_strategy ticks self
  = (place_order symbol q 20 "SELL" "MARKET" ;; ret default_strategy)%broker
      self.
Proof. reflexivity. Qed.

Lemma order_each_tick_behaved (symbol : string) (q : Z)
    (strategy : SurvivorBacktestStrategy.t) (ticks : price_dict)
    (self : Backtester.t) :
  strategy = default_strategy ->
  exists strategy' reacted,
    order_each_tick symbol q strategy ticks self = Ok (strategy', reacted)
    /\ strategy' = default_strategy
    /\ history reacted = history self.
Proof.
  intros ->.
  destruct (place_order_returns_1 symbol q 20 "SELL" "MARKET" self)
    as (reacted & E & Hh & _).
  exists default_strategy, reacted.
  rewrite order_each_tick_default. unfold bind. rewrite E.
  repeat split. exact Hh.
Qed.

(** Three ticks fed to the strategy that sells 50 on each of them. *)
Lemma run_records_every_tick_witness :
  exists final,
    @run _ sells_50_each_tick
      (Backtester.__init__ [(1, 24500); (2, 24510); (3, 24490)] 100000)
    = Ok (tt, final)
    /\ length (history final) = 3%nat
    /\ timestamp <$> history final = [1; 2; 3]
    /\ @recorded _ sells_50_each_tick default_strategy
         (Backtester.__init__ [(1, 24500); (2, 24510); (3, 24490)] 100000)
         [(1, 24500); (2, 24510); (3, 24490)] (history final).
Proof.
  apply (@run_records_every_tick _ sells_50_each_tick
           (fun strategy => strategy = default_strategy)
           [(1, 24500); (2, 24510); (3, 24490)] 100000 default_strategy).
  - vm_compute. reflexivity.
  - reflexivity.
  - intros strategy ticks self.
    apply (order_each_tick_behaved "NIFTY-CE-24525" 50).
Defined.

(** The empty feed, on [SurvivorBacktestStrategy] with the default
    configuration. *)
Lemma empty_feed_reports_no_data_witness :
  @new _ sells_50_each_tick _get_default_config = Ok default_strategy
  /\ exists final,
       @run _ sells_50_each_tick (Backtester.__init__ [] 100000)
       = Ok (tt, final)
       /\ history final = []
       /\ generate_performance_report final
          = Ok ([Line "No trading history to generate a report."], None)
       /\ forall (self : Backtester.t) (out : list printed)
                 (r : option (list history_entry)),
            generate_performance_report self = Ok (out, r) ->
            (r = None <-> history self = [])
            /\ (history self <> [] -> r = Some (history self)).
Proof.
  split; [vm_compute; reflexivity|].
  apply (@empty_feed_reports_no_data _ sells_50_each_tick 100000
           default_strategy).
  vm_compute. reflexivity.
Defined.

(** One tick at 24500 on which [SurvivorBacktestStrategy] sells 50 of
    "NIFTY-CE-24525" through [_place_order]. *)
Lemma single_sell_tick_witness :
  @new _ sells_50_each_tick _get_default_config = Ok default_strategy
  /\ exists final,
       @run _ sells_50_each_tick (Backtester.__init__ [(0, 24500)] 100000)
       = Ok (tt, final)
       /\ cash final = 101000
       /\ positions final !! "NIFTY-CE-24525" = Some {| quantity := -50 |}
       /\ portfolio_value final = -1124000
       /\ history final
          = [ {| timestamp := 0; entry_portfolio_value := -1124000 |} ].
Proof.
  split; [vm_compute; reflexivity|].
  apply (@single_sell_tick _ sells_50_each_tick default_strategy
           default_strategy "NIFTY-CE-24525" 0 "MARKET").
  - vm_compute. reflexivity.
  - intros self. reflexivity.
Defined.

(** C2 as stated fails on its last figure: in that run the cash is 101000
    and the position -50, but the value recorded for the tick is -1124000,
    not 100000. *)
Lemma single_sell_tick_value_is_not_100000 :
  exists final,
    @run _ sells_50_each_tick (Backtester.__init__ [(0, 24500)] 100000)
    = Ok (tt, final)
    /\ cash final = 101000
    /\ position_quantity "NIFTY-CE-24525" final = -50
    /\ history final
       = [ {| timestamp := 0; entry_portfolio_value := -1124000 |} ]
    /\ portfolio_value final <> 100000.
Proof.
  eexists. split; [vm_compute; reflexivity|].
  repeat split; try (vm_compute; reflexivity).
  vm_compute. discriminate.
Qed.

(** ** Further properties of order execution *)

Lemma pyval_eqb_eq (a b : pyval) : pyval_eqb a b = true <-> a = b.
Proof.
  destruct a as [x|x], b as [y|y]; simpl; split; try discriminate.
  - intros E. apply Z.eqb_eq in E. congruence.
  - intros [= ->]. apply Z.eqb_refl.
  - intros E. apply String.eqb_eq in E. congruence.
  - intros [= ->]. apply String.eqb_refl.
Qed.

Lemma pyval_eqb_neq (a b : pyval) : a <> b -> pyval_eqb a b = false.
Proof.
  intros Hne. destruct (pyval_eqb a b) eqn:E; [|reflexivity].
  apply pyval_eqb_eq in E. contradiction.
Qed.

Lemma place_order_cases (symbol : string) (q p : Z) (tt ot : pyval)
    (self : Backtester.t) :
  place_order symbol q p tt ot self
  = Ok (1, if pyval_eqb tt "SELL" then fill symbol (- q) (q * p) self
           else if pyval_eqb tt "BUY" then fill symbol q (- (q * p)) self
           else self).
Proof.
  unfold place_order, fill, position_quantity.
  destruct (pyval_eqb tt "SELL"); [|destruct (pyval_eqb tt "BUY")]; simpl;
    try destruct (positions self !! symbol); reflexivity.
Qed.

Lemma position_quantity_fill (symbol other : string) (dq dc : Z)
    (self : Backtester.t) :
  position_quantity other (fill symbol dq dc self)
  = if decide (symbol = other) then position_quantity other self + dq
    else position_quantity other self.
Proof.
  unfold fill, position_quantity at 1. simpl. rewrite lookup_insert.
  destruct (decide (symbol = other)) as [->|]; reflexivity.
Qed.

Lemma fill_comm (s1 s2 : string) (dq1 dc1 dq2 dc2 : Z) (self : Backtester.t) :
  fill s1 dq1 dc1 (fill s2 dq2 dc2 self)
  = fill s2 dq2 dc2 (fill s1 dq1 dc1 self).
Proof.
  unfold fill at 1 3. rewrite !position_quantity_fill.
  unfold fill, set_positions, set_cash. simpl. f_equal; [lia|].
  destruct (decide (s2 = s1)) as [->|Hne].
  - rewrite decide_True by reflexivity. rewrite !insert_insert_eq.
    do 2 f_equal. lia.
  - rewrite decide_False by congruence.
    apply insert_insert_ne. congruence.
Qed.

Lemma fill_fill (symbol : string) (dq1 dc1 dq2 dc2 : Z)
    (self : Backtester.t) :
  fill symbol dq2 dc2 (fill symbol dq1 dc1 self)
  = fill symbol (dq1 + dq2) (dc1 + dc2) self.
Proof.
  unfold fill at 1. rewrite position_quantity_fill.
  rewrite decide_True by reflexivity.
  unfold fill, set_positions, set_cash. simpl. f_equal; [lia|].
  rewrite insert_insert_eq. do 2 f_equal. lia.
Qed.

(** X1: a transaction type that is neither 'SELL' nor 'BUY' is not an
    error: the call returns identifier 1 and the object is left exactly as it
    was. *)
Theorem place_order_ignores_unknown_side (symbol : string) (q p : Z)
    (tt ot : pyval) (self : Backtester.t) :
  tt <> VStr "SELL" -> tt <> VStr "BUY" ->
  place_order symbol q p tt ot self = Ok (1, self).
Proof.
  intros Hs Hb. rewrite place_order_cases.
  rewrite (pyval_eqb_neq _ _ Hs), (pyval_eqb_neq _ _ Hb). reflexivity.
Qed.

(** A lower-case 'sell' changes nothing. *)
Lemma place_order_ignores_unknown_side_witness :
  place_order "NIFTYCE24700" 50 20 "sell" "MARKET"
    (Backtester.__init__ [] 100000)
  = Ok (1, Backtester.__init__ [] 100000).
Proof.
  apply (place_order_ignores_unknown_side "NIFTYCE24700" 50 20 "sell"
           "MARKET" (Backtester.__init__ [] 100000)); discriminate.
Defined.

(** X2: an order touches the cash and the entry of its own symbol only: the
    data, the initial capital, the recorded portfolio value, the history and
    every other symbol's entry are as before, and no entry of the position
    book is ever removed. *)
Theorem place_order_frame (symbol : string) (q p : Z) (tt ot : pyval)
    (self : Backtester.t) :
  exists self',
    place_order symbol q p tt ot self = Ok (1, self')
    /\ data self' = data self
    /\ initial_capital self' = initial_capital self
    /\ portfolio_value self' = portfolio_value self
    /\ history self' = history self
    /\ (forall other : string,
          other <> symbol -> positions self' !! other = positions self !! other)
    /\ dom (positions self) ⊆ dom (positions self').
Proof.
  rewrite place_order_cases. eexists. split; [reflexivity|].
  destruct (pyval_eqb tt "SELL"); [|destruct (pyval_eqb tt "BUY")];
    repeat split; try reflexivity;
    try (intros other Hne; simpl; apply lookup_insert_ne; congruence);
    try (simpl; apply dom_insert_subseteq).
Qed.

(** X3: two orders executed one after the other leave the same object
    whichever of them goes first, for any symbols, sides, quantities and
    prices. *)
Theorem place_order_commute (s1 s2 : string) (q1 p1 q2 p2 : Z)
    (tt1 ot1 tt2 ot2 : pyval) (self : Backtester.t) :
  (place_order s1 q1 p1 tt1 ot1 ;; place_order s2 q2 p2 tt2 ot2)%broker self
  = (place_order s2 q2 p2 tt2 ot2 ;; place_order s1 q1 p1 tt1 ot1)%broker self.
Proof.
  unfold bind. rewrite !place_order_cases.
  destruct (pyval_eqb tt1 "SELL"); [|destruct (pyval_eqb tt1 "BUY")];
    (destruct (pyval_eqb tt2 "SELL"); [|destruct (pyval_eqb tt2 "BUY")]);
    try reflexivity; rewrite fill_comm; reflexivity.
Qed.

(** X4: two SELL orders on one symbol at one price leave the same object as
    a single SELL of the summed quantity. *)
Theorem sell_orders_merge (symbol : string) (q1 q2 p : Z)
    (ot1 ot2 ot : pyval) (self : Backtester.t) :
  (place_order symbol q1 p "SELL" ot1 ;; place_order symbol q2 p "SELL" ot2)%broker
    self
  = place_order symbol (q1 + q2) p "SELL" ot self.
Proof.
  unfold bind. rewrite !place_order_cases. simpl.
  rewrite fill_fill. do 2 f_equal. unfold fill. do 3 f_equal; lia.
Qed.

(** X5: when the symbol already has an entry, a SELL followed by a BUY of
    the same quantity at the same price gives back the very same object. *)
Theorem round_trip_restores_object (symbol : string) (q p : Z)
    (ot1 ot2 : pyval) (pos : position) (self : Backtester.t) :
  positions self !! symbol = Some pos ->
  (place_order symbol q p "SELL" ot1 ;; place_order symbol q p "BUY" ot2)%broker
    self
  = Ok (1, self).
Proof.
  intros Hpos. unfold bind. rewrite !place_order_cases. simpl.
  rewrite fill_fill. do 2 f_equal.
  unfold fill, position_quantity, set_positions, set_cash. rewrite Hpos.
  destruct self as [d ic c ps pv h idf]. simpl in *. f_equal; [lia|].
  replace (quantity pos + (- q + q)) with (quantity pos) by lia.
  destruct pos as [x]. simpl. apply insert_id. exact Hpos.
Qed.

(** A held short of 50 survives a round trip of 10 untouched. *)
Lemma round_trip_restores_object_witness :
  positions short_50_at_20 !! "NIFTY-CE-24525" = Some {| quantity := -50 |}
  /\ (place_order "NIFTY-CE-24525" 10 20 "SELL" "MARKET" ;;
      place_order "NIFTY-CE-24525" 10 20 "BUY" "MARKET")%broker short_50_at_20
     = Ok (1, short_50_at_20).
Proof.
  split; [vm_compute; reflexivity|].
  apply (round_trip_restores_object "NIFTY-CE-24525" 10 20 "MARKET" "MARKET"
           {| quantity := -50 |} short_50_at_20).
  vm_compute. reflexivity.
Defined.

(** ** Further properties of mark-to-market *)

Lemma quantities_insert (symbol : string) (x : position)
    (ps : gmap string position) :
  Z_sum ((fun kp : string * position => quantity kp.2)
           <$> map_to_list (<[symbol := x]> ps))
  = Z_sum ((fun kp : string * position => quantity kp.2) <$> map_to_list ps)
    - match ps !! symbol with Some old => quantity old | None => 0 end
    + quantity x.
Proof.
  destruct (ps !! symbol) as [old|] eqn:E.
  - rewrite <- insert_delete_eq.
    rewrite (Z_sum_permutation _
               ((fun kp : string * position => quantity kp.2)
                  <$> ((symbol, x) :: map_to_list (delete symbol ps))));
      [|apply fmap_Permutation, map_to_list_insert, lookup_delete_eq].
    rewrite (Z_sum_permutation
               ((fun kp : string * position => quantity kp.2) <$> map_to_list ps)
               ((fun kp : string * position => quantity kp.2)
                  <$> ((symbol, old) :: map_to_list (delete symbol ps))));
      [|apply fmap_Permutation; symmetry; apply map_to_list_delete, E].
    unfold Z_sum. csimpl. lia.
  - rewrite (Z_sum_permutation _
               ((fun kp : string * position => quantity kp.2)
                  <$> ((symbol, x) :: map_to_list ps)));
      [|apply fmap_Permutation, map_to_list_insert, E].
    unfold Z_sum. csimpl. lia.
Qed.

Lemma total_quantity_fill (symbol : string) (dq dc : Z) (self : Backtester.t) :
  total_quantity (fill symbol dq dc self) = total_quantity self + dq.
Proof.
  unfold total_quantity, fill. simpl. rewrite quantities_insert.
  unfold position_quantity. simpl.
  destruct (positions self !! symbol); lia.
Qed.

Lemma update_portfolio_value_total (p : Z) (self : Backtester.t) :
  portfolio_value (_update_portfolio_value p self)
  = cash self + p * total_quantity self.
Proof.
  rewrite update_portfolio_value_sum. unfold total_quantity.
  rewrite Z_sum_scale. reflexivity.
Qed.

(** X6: an order filled at price [p] does not change the value obtained by
    marking at that same price: what the cash gains the position loses, for
    either side, any quantity and any state of the book. *)
Theorem order_keeps_value_at_fill_price (symbol : string) (q p : Z)
    (tt ot : pyval) (self : Backtester.t) :
  exists self',
    place_order symbol q p tt ot self = Ok (1, self')
    /\ portfolio_value (_update_portfolio_value p self')
       = portfolio_value (_update_portfolio_value p self).
Proof.
  rewrite place_order_cases. eexists. split; [reflexivity|].
  rewrite !update_portfolio_value_total.
  destruct (pyval_eqb tt "SELL"); [|destruct (pyval_eqb tt "BUY")];
    try reflexivity; rewrite total_quantity_fill; simpl; lia.
Qed.

(** X7: between two marks of the same book the recorded value moves by the
    price difference times the sum of all quantities; with an empty book the
    recorded value is the cash, whatever the price. *)
Theorem mark_moves_with_net_quantity (p1 p2 : Z) (self : Backtester.t) :
  portfolio_value (_update_portfolio_value p1 self)
  - portfolio_value (_update_portfolio_value p2 self)
  = (p1 - p2) * total_quantity self
  /\ portfolio_value (_update_portfolio_value p1 (set_positions ∅ self))
     = cash self.
Proof.
  split.
  - rewrite !update_portfolio_value_total. lia.
  - rewrite update_portfolio_value_total. unfold total_quantity. simpl.
    rewrite map_to_list_empty. unfold Z_sum. simpl. lia.
Qed.

(** X8: an order changes the sum of all quantities by exactly its signed
    quantity (minus for a SELL, plus for a BUY), whether or not the symbol
    had an entry. *)
Theorem order_moves_net_quantity (symbol : string) (q p : Z) (ot : pyval)
    (self : Backtester.t) :
  (exists sold,
      place_order symbol q p "SELL" ot self = Ok (1, sold)
      /\ total_quantity sold = total_quantity self - q)
  /\ (exists bought,
        place_order symbol q p "BUY" ot self = Ok (1, bought)
        /\ total_quantity bought = total_quantity self + q).
Proof.
  split; rewrite place_order_cases; simpl; eexists;
    (split; [reflexivity|]); rewrite total_quantity_fill; lia.
Qed.

(** ** Further properties of the simulation loop *)

Section RunMore.
Context {S : Type} `{Strategy S}.

Lemma run_loop_ends_marked (rows : list (Z * Z)) :
  forall (strategy : S) (self final : Backtester.t) (index price : Z),
    run_loop strategy rows self = Ok (tt, final) ->
    last rows = Some (index, price) ->
    last (history final)
    = Some {| timestamp := index;
              entry_portfolio_value := portfolio_value final |}
    /\ portfolio_value final = cash final + price * total_quantity final.
Proof.
  induction rows as [|[i p] rows IH]; intros strategy self final index price;
    [discriminate|].
  destruct (on_ticks_update strategy {| last_price := p |} self)
    as [[strategy' reacted]|e] eqn:E.
  - rewrite (run_loop_tick _ _ _ _ _ _ _ E).
    destruct rows as [|r rows].
    + simpl. intros [= <-] [= <- <-].
      rewrite history_record_history, last_snoc. split; [reflexivity|].
      exact (update_portfolio_value_total p reacted).
    + intros Hrun Hlast. apply (IH _ _ _ _ _ Hrun). exact Hlast.
  - simpl. unfold bind. rewrite E. discriminate.
Qed.


Lemma run_loop_flat (rows : list (Z * Z)) :
  (forall (strategy : S) (ticks : price_dict) (self : Backtester.t),
      exists strategy', on_ticks_update strategy ticks self = Ok (strategy', self)) ->
  forall (strategy : S) (self : Backtester.t),
    positions self = ∅ ->
    exists final entries,
      run_loop strategy rows self = Ok (tt, final)
      /\ cash final = cash self
      /\ positions final = ∅
      /\ history final = (history self ++ entries)%list
      /\ length entries = length rows
      /\ Forall (fun e => entry_portfolio_value e = cash self) entries.
Proof.
  intros Hidle.
  induction rows as [|[i p] rows IH]; intros strategy self Hps.
  - exists self, []. rewrite app_nil_r. repeat split; [assumption|constructor].
  - destruct (Hidle strategy {| last_price := p |} self) as (strategy' & E).
    destruct (IH strategy' (record_history i (_update_portfolio_value p self)) Hps)
      as (final & entries & Erun & Hc & Hp & Hh & Hl & Hv).
    exists final,
      ({| timestamp := i;
          entry_portfolio_value :=
            portfolio_value (_update_portfolio_value p self) |} :: entries).
    split; [rewrite (run_loop_tick _ _ _ _ _ _ _ E); exact Erun|].
    split; [exact Hc|]. split; [exact Hp|].
    split; [rewrite Hh, history_record_history, <- app_assoc; reflexivity|].
    split; [simpl; rewrite Hl; reflexivity|].
    constructor; [|exact Hv].
    simpl. rewrite Hps. apply map_fold_empty.
Qed.

(** X10: with a strategy whose callback returns without touching the broker,
    a run from a fresh backtester records the initial capital for every
    tick and ends with the cash at the initial capital and an empty position
    book. *)
Theorem run_without_orders_is_flat (rows : list (Z * Z)) (capital : Z)
    (strategy : S) :
  new _get_default_config = Ok strategy ->
  (forall (strategy : S) (ticks : price_dict) (self : Backtester.t),
      exists strategy', on_ticks_update strategy ticks self = Ok (strategy', self)) ->
  exists final,
    run (Backtester.__init__ rows capital) = Ok (tt, final)
    /\ cash final = capital
    /\ positions final = ∅
    /\ portfolio_value final = capital
    /\ length (history final) = length rows
    /\ Forall (fun e => entry_portfolio_value e = capital) (history final).
Proof.
  intros Hnew Hidle.
  destruct (run_loop_flat rows Hidle strategy (Backtester.__init__ rows capital)
              eq_refl)
    as (final & entries & Erun & Hc & Hp & Hh & Hl & Hv).
  simpl in Hh, Hc, Hv. subst entries.
  exists final. split; [rewrite (run_constructed strategy _ Hnew); exact Erun|].
  split; [exact Hc|]. split; [exact Hp|].
  split; [|split; assumption].
  destruct rows as [|r rows].
  - injection Erun as <-. reflexivity.
  - destruct (last (r :: rows)) as [[index price]|] eqn:El.
    + destruct (run_loop_ends_marked _ _ _ _ _ _ Erun El) as [_ Hpv].
      rewrite Hpv, Hc. unfold total_quantity. rewrite Hp, map_to_list_empty.
      unfold Z_sum. simpl. lia.
    + apply last_None in El. discriminate.
Qed.

(** X11: [run] only appends: whatever history the object already has stays
    in front, followed by one new entry per row, for a strategy whose
    callback returns and leaves the history alone. *)
Theorem run_appends_to_history (behaved : S -> Prop) (strategy : S)
    (self : Backtester.t) :
  new _get_default_config = Ok strategy ->
  behaved strategy ->
  (forall (strategy : S) (ticks : price_dict) (self : Backtester.t),
      behaved strategy ->
      exists strategy' reacted,
        on_ticks_update strategy ticks self = Ok (strategy', reacted)
        /\ behaved strategy'
        /\ history reacted = history self) ->
  exists final entries,
    run self = Ok (tt, final)
    /\ history final = (history self ++ entries)%list
    /\ length entries = length (data self)
    /\ timestamp <$> entries = (data self).*1.
Proof.
  intros Hnew Hb Hreacts.
  destruct (run_loop_recorded behaved Hreacts (data self) strategy self Hb)
    as (final & entries & Erun & Hh & Hts & _).
  exists final, entries.
  split; [rewrite (run_constructed strategy _ Hnew); exact Erun|].
  split; [exact Hh|]. split; [|exact Hts].
  rewrite <- (length_fmap timestamp), Hts, length_fmap. reflexivity.
Qed.

End RunMore.


(** Three ticks with the strategy that never trades. *)
Lemma run_without_orders_is_flat_witness :
  exists final,
    @run _ never_trades
      (Backtester.__init__ [(1, 24500); (2, 24510); (3, 24490)] 100000)
    = Ok (tt, final)
    /\ cash final = 100000
    /\ positions final = ∅
    /\ portfolio_value final = 100000
    /\ length (history final) = 3%nat
    /\ Forall (fun e => entry_portfolio_value e = 100000) (history final).
Proof.
  apply (@run_without_orders_is_flat _ never_trades
           [(1, 24500); (2, 24510); (3, 24490)] 100000 default_strategy).
  - vm_compute. reflexivity.
  - intros strategy ticks self. exists strategy. reflexivity.
Defined.

(** A second run on the object left by a first one. *)
Lemma run_appends_to_history_witness :
  exists final entries,
    @run _ sells_50_each_tick after_one_run = Ok (tt, final)
    /\ history final = (history after_one_run ++ entries)%list
    /\ length entries = length (data after_one_run)
    /\ timestamp <$> entries = (data after_one_run).*1.
Proof.
  apply (@run_appends_to_history _ sells_50_each_tick
           (fun strategy => strategy = default_strategy) default_strategy
           after_one_run).
  - vm_compute. reflexivity.
  - reflexivity.
  - intros strategy ticks self.
    apply (order_each_tick_behaved "NIFTY-CE-24525" 50).
Defined.

(** ** Further properties of reporting *)


(** ** Further properties of the strategy *)

(** X13: [_place_order] raises exactly when the strategy has no 'trans_type'
    or no 'order_type' attribute (the second is required although the broker
    never looks at it); with both present it is the broker's [place_order]
    at the fixed price 20 with the configured side. *)
Theorem strategy_place_order_needs_both_types
    (strategy : SurvivorBacktestStrategy.t) (symbol : string) (q : Z)
    (self : Backtester.t) :
  (is_raise (_place_order strategy symbol q self) = true
   <-> strat_var strategy !! "trans_type" = None
       \/ strat_var strategy !! "order_type" = None)
  /\ (forall tt ot : pyval,
        strat_var strategy !! "trans_type" = Some tt ->
        strat_var strategy !! "order_type" = Some ot ->
        _place_order strategy symbol q self
        = (place_order symbol q 20 tt ot ;; ret ())%broker self).
Proof.
  unfold _place_order, bind, lift, get_strat_var.
  destruct (strat_var strategy !! "trans_type") as [tt|];
    destruct (strat_var strategy !! "order_type") as [ot|].
  - split.
    + destruct (place_order_returns_1 symbol q 20 tt ot self)
        as (self' & E & _).
      rewrite E. simpl. split; [discriminate|]. intros [?|?]; discriminate.
    + intros tt' ot' [= <-] [= <-]. reflexivity.
  - split; [|intros ? ? _ ?; discriminate]. simpl. split; auto.
  - split; [|intros ? ? ?; discriminate]. simpl. split; auto.
  - split; [|intros ? ? ?; discriminate]. simpl. split; auto.
Qed.

(** X14: for calls and puts the trading symbol determines the option type
    and the strike: two instruments with the same symbol have the same type
    and the same strike. *)
Theorem tradingsymbol_determines_strike (ot1 ot2 : string)
    (ltp1 gap1 ltp2 gap2 : Z) :
  ot1 = "CE" \/ ot1 = "PE" ->
  ot2 = "CE" \/ ot2 = "PE" ->
  tradingsymbol (_find_nifty_symbol_from_gap ot1 ltp1 gap1)
  = tradingsymbol (_find_nifty_symbol_from_gap ot2 ltp2 gap2) ->
  ot1 = ot2
  /\ strike (_find_nifty_symbol_from_gap ot1 ltp1 gap1)
     = strike (_find_nifty_symbol_from_gap ot2 ltp2 gap2).
Proof.
  intros [-> | ->] [-> | ->]; unfold _find_nifty_symbol_from_gap; simpl;
    intros E; try discriminate; split; try reflexivity;
    injection E as E; exact (pretty_Z_inj _ _ E).
Qed.

(** 24500 + 200 and 24600 + 100 are the same call. *)
Lemma tradingsymbol_determines_strike_witness :
  "CE" = "CE"
  /\ strike (_find_nifty_symbol_from_gap "CE" 24500 200)
     = strike (_find_nifty_symbol_from_gap "CE" 24600 100).
Proof.
  apply (tradingsymbol_determines_strike "CE" "CE" 24500 200 24600 100).
  - left. reflexivity.
  - left. reflexivity.
  - vm_compute. reflexivity.
Defined.

(** X15: every option type other than the exact string 'CE' is handled as a
    put: the strike is [ltp - gap] and the symbol carries the given type. *)
Theorem other_option_types_are_puts (option_type : string) (ltp gap : Z) :
  option_type <> "CE" ->
  _find_nifty_symbol_from_gap option_type ltp gap
  = {| tradingsymbol := "NIFTY" ++ option_type ++ pretty (ltp - gap);
       strike := ltp - gap |}.
Proof.
  intros Hne. unfold _find_nifty_symbol_from_gap.
  destruct (String.eqb_spec option_type "CE") as [E|_]; [contradiction|].
  reflexivity.
Qed.

(** A lower-case 'ce' gives the put strike. *)
Lemma other_option_types_are_puts_witness :
  _find_nifty_symbol_from_gap "ce" 24500 200
  = {| tradingsymbol := "NIFTYce24300"; strike := 24300 |}.
Proof.
  apply (other_option_types_are_puts "ce" 24500 200). discriminate.
Defined.

(** X16: for a strategy built from the configuration that [run] passes,
    every [_place_order] goes through as a SELL at 20: the cash grows by 20
    times the quantity and the quantity held in the symbol falls by the
    quantity. *)
Theorem default_strategy_orders_sell_at_20
    (strategy : SurvivorBacktestStrategy.t) (symbol : string) (q : Z)
    (self : Backtester.t) :
  SurvivorBacktestStrategy.__init__ _get_default_config = Ok strategy ->
  exists self',
    _place_order strategy symbol q self = Ok ((), self')
    /\ cash self' = cash self + q * 20
    /\ position_quantity symbol self' = position_quantity symbol self - q
    /\ total_quantity self' = total_quantity self - q.
Proof.
  rewrite init_default_strategy. intros [= <-].
  exists (fill symbol (- q) (q * 20) self).
  split; [|split; [reflexivity|split]].
  - change (_place_order default_strategy symbol q self)
      with ((place_order symbol q 20 "SELL" "MARKET" ;; ret ())%broker self).
    unfold bind. rewrite place_order_cases. reflexivity.
  - rewrite position_quantity_fill, decide_True by reflexivity. lia.
  - rewrite total_quantity_fill. lia.
Qed.

(** The order of the survivor strategy on a fresh backtester. *)
Lemma default_strategy_orders_sell_at_20_witness :
  exists self',
    _place_order default_strategy "NIFTYPE24300" 50
      (Backtester.__init__ [] 100000) = Ok ((), self')
    /\ cash self' = cash (Backtester.__init__ [] 100000) + 50 * 20
    /\ position_quantity "NIFTYPE24300" self'
       = position_quantity "NIFTYPE24300" (Backtester.__init__ [] 100000) - 50
    /\ total_quantity self'
       = total_quantity (Backtester.__init__ [] 100000) - 50.
Proof.
  apply (default_strategy_orders_sell_at_20 default_strategy "NIFTYPE24300" 50
           (Backtester.__init__ [] 100000)).
  vm_compute. reflexivity.
Defined.
